(** * The WebP decode bridge of splat-transform (lib/webp_decode.c)

    The C file exports two functions to the host: [webp_decode_rgba], which
    runs libwebp's header probe and RGBA decoder on a caller-owned byte
    buffer and hands a pointer and two dimensions back through caller-owned
    slots, and [webp_free].  The decoder itself (libwebp, reached through
    "src/webp/decode.h") is a parameter of the development. *)

From stdpp Require Import base gmap list.
From Stdlib Require Import ZArith Lia.

Local Open Scope Z_scope.

(** ** Memory

    Pointers are addresses, with [0] the null pointer.  The store maps the
    address of an object to the object: a [uint8_t] buffer, an [int], or a
    [uint8_t*].  Nothing keeps two pointer arguments from naming the same
    object. *)

Abbreviation NULL := 0 (only parsing).

Inductive object : Type :=
| OBytes (bs : list Byte.byte)
| OInt (z : Z)
| OPtr (p : Z).

Abbreviation mem := (gmap Z object).

(** What a call does that the host can observe: calls into libwebp and
    stores through pointers. *)
Inductive event : Type :=
| EvGetInfo (data size : Z)
| EvDecodeRGBA (data size : Z)
| EvStore (p : Z) (o : object)
| EvFree (p : Z).

(** A computation reads and updates the store and emits events. *)
Definition M (A : Type) : Type := mem → A * mem * list event.

#[global] Instance M_ret : MRet M := λ A a m, (a, m, []).

#[global] Instance M_bind : MBind M := λ A B f c m,
  let '(a, m1, t1) := c m in
  let '(b, m2, t2) := f a m1 in
  (b, m2, t1 ++ t2).

(** The store a computation leaves. *)
Definition final_mem {A} (x : A * mem * list event) : mem := x.1.2.

(** [*p = o] *)
Definition store (p : Z) (o : object) : M unit :=
  λ m, (tt, <[p := o]> m, [EvStore p o]).

(** ** libwebp, as declared in decode.h

    [int WebPGetInfo(const uint8_t* data, size_t data_size, int* width, int* height)]
    and
    [uint8_t* WebPDecodeRGBA(const uint8_t* data, size_t data_size, int* width, int* height)].
    Both receive the addresses of the wrapper's locals [w] and [h]; the
    locals go in and come out as a pair.  The decoder allocates, so it
    returns a store as well. *)
Record libwebp : Type := {
  WebPGetInfo : mem → Z → Z → Z * Z → Z * (Z * Z);
  WebPDecodeRGBA : mem → Z → Z → Z * Z → mem * Z * (Z * Z);
  WebPFree : mem → Z → mem
}.

Section Wrapper.

Context (lib : libwebp).

Definition call_WebPGetInfo (data size : Z) (wh : Z * Z) : M (Z * (Z * Z)) :=
  λ m, (WebPGetInfo lib m data size wh, m, [EvGetInfo data size]).

Definition call_WebPDecodeRGBA (data size : Z) (wh : Z * Z) : M (Z * (Z * Z)) :=
  λ m, let '(m', rgba, wh') := WebPDecodeRGBA lib m data size wh in
       ((rgba, wh'), m', [EvDecodeRGBA data size]).

Definition call_WebPFree (p : Z) : M unit :=
  λ m, (tt, WebPFree lib m p, [EvFree p]).

(** [int webp_decode_rgba(const uint8_t* webp_data, size_t data_size,
                          uint8_t** out_rgba, int* width, int* height)] *)
Definition webp_decode_rgba (webp_data data_size out_rgba width height : Z) : M Z :=
  if (webp_data =? NULL) || (data_size =? 0) || (out_rgba =? NULL)
     || (width =? NULL) || (height =? NULL)
  then mret 0
  else
    let w := 0 in
    let h := 0 in
    '(ok, (w, h)) ← call_WebPGetInfo webp_data data_size (w, h);
    if (ok =? 0) || (w <=? 0) || (h <=? 0)
    then mret 0
    else
      '(rgba, (w, h)) ← call_WebPDecodeRGBA webp_data data_size (w, h);
      if rgba =? NULL
      then mret 0
      else
        store out_rgba (OPtr rgba);;
        store width (OInt w);;
        store height (OInt h);;
        mret 1.

(** [void webp_free(void* p)] *)
Definition webp_free (p : Z) : M unit := call_WebPFree p.

End Wrapper.

(** The four ways through the function body, in source order: the argument
    guard, the header guard, a null decoder result, and the three stores. *)
Inductive decode_run (lib : libwebp)
    (webp_data data_size out_rgba width height : Z) (m : mem) :
    Z * mem * list event → Prop :=
| run_bad_arguments :
    webp_data = NULL ∨ data_size = 0 ∨ out_rgba = NULL ∨ width = NULL ∨ height = NULL →
    decode_run lib webp_data data_size out_rgba width height m (0, m, [])
| run_bad_header ok w h :
    webp_data ≠ NULL → data_size ≠ 0 → out_rgba ≠ NULL → width ≠ NULL → height ≠ NULL →
    WebPGetInfo lib m webp_data data_size (0, 0) = (ok, (w, h)) →
    ok = 0 ∨ w ≤ 0 ∨ h ≤ 0 →
    decode_run lib webp_data data_size out_rgba width height m
      (0, m, [EvGetInfo webp_data data_size])
| run_decode_failed ok w h m' wh' :
    webp_data ≠ NULL → data_size ≠ 0 → out_rgba ≠ NULL → width ≠ NULL → height ≠ NULL →
    WebPGetInfo lib m webp_data data_size (0, 0) = (ok, (w, h)) →
    ok ≠ 0 → 0 < w → 0 < h →
    WebPDecodeRGBA lib m webp_data data_size (w, h) = (m', NULL, wh') →
    decode_run lib webp_data data_size out_rgba width height m
      (0, m', [EvGetInfo webp_data data_size; EvDecodeRGBA webp_data data_size])
| run_decoded ok w h m' rgba w' h' :
    webp_data ≠ NULL → data_size ≠ 0 → out_rgba ≠ NULL → width ≠ NULL → height ≠ NULL →
    WebPGetInfo lib m webp_data data_size (0, 0) = (ok, (w, h)) →
    ok ≠ 0 → 0 < w → 0 < h →
    WebPDecodeRGBA lib m webp_data data_size (w, h) = (m', rgba, (w', h')) →
    rgba ≠ NULL →
    decode_run lib webp_data data_size out_rgba width height m
      (1,
       <[height := OInt h']> (<[width := OInt w']> (<[out_rgba := OPtr rgba]> m')),
       [EvGetInfo webp_data data_size; EvDecodeRGBA webp_data data_size;
        EvStore out_rgba (OPtr rgba); EvStore width (OInt w'); EvStore height (OInt h')]).

(** ** What the decoder is taken to do

    The bytes a call is given: the first [data_size] bytes of the buffer
    at [webp_data]. *)
Definition input_bytes (m : mem) (data size : Z) : option (list Byte.byte) :=
  match m !! data with
  | Some (OBytes bs) =>
      if decide (0 ≤ size ≤ Z.of_nat (length bs))
      then Some (take (Z.to_nat size) bs)
      else None
  | _ => None
  end.

(** Byte offset of channel [c] of pixel [(x, y)] in a row-major RGBA8
    buffer of width [w]. *)
Definition rgba_offset (w x y c : Z) : Z := (y * w + x) * 4 + c.

(** A row-major RGBA8 buffer of [w] by [h] pixels. *)
Definition rgba8_buffer (px : list Byte.byte) (w h : Z) : Prop :=
  Z.of_nat (length px) = w * h * 4.

(** Modelled from the spec: the output of libwebp's decoder, whose source is
    not part of the wrapper.  "on success, pixel buffer (RGBA8, row-major,
    width*height*4 bytes), width, height" and "decode(bytes).width/height
    equals the dimensions declared in the container header": when the
    header probe accepts the input and the decoder returns a buffer, the
    buffer has that shape and the decoder reports the header's dimensions. *)
Definition decoder_output_contract (lib : libwebp) : Prop :=
  ∀ m data size wh0 ok w h wh1 m' rgba w' h',
    WebPGetInfo lib m data size wh0 = (ok, (w, h)) →
    ok ≠ 0 →
    WebPDecodeRGBA lib m data size wh1 = (m', rgba, (w', h')) →
    rgba ≠ NULL →
    (w', h') = (w, h) ∧
    ∃ px, m' !! rgba = Some (OBytes px) ∧ rgba8_buffer px w' h'.


(** Modelled from the spec: the decoder's use of its input.  "EncodedImage:
    immutable byte sequence, owned by caller for the duration of a decode
    call; no mutation" and "buffer reference (borrowed, not owned)": the
    decoder takes [const uint8_t* data] and leaves the object there as it
    found it. *)
Definition decoder_keeps_input (lib : libwebp) : Prop :=
  ∀ m data size wh,
    (WebPDecodeRGBA lib m data size wh).1.1 !! data = m !! data.

(** ** Extents

    An [int] and a pointer are four bytes wide (Emscripten targets wasm32),
    a byte buffer is as wide as the bytes it holds.  The store keeps every
    object whole under its first address, which is exact for what a call
    writes to its slots.  What a call leaves alone is a matter of bytes: a
    store through a slot writes the four bytes from the slot's address on,
    and an object is out of its way when none of its bytes is among them.
    The store does not say which bytes of an object a store into its middle
    changes, so what is proved to be left alone is proved of objects that
    lie apart from the slots. *)
Definition slot_size : Z := 4.

Definition object_size (o : object) : Z :=
  match o with
  | OBytes bs => Z.of_nat (length bs)
  | OInt _ | OPtr _ => slot_size
  end.

(** The bytes an event writes. *)
Definition writes_byte (e : event) (b : Z) : Prop :=
  match e with
  | EvStore p o => p ≤ b < p + object_size o
  | _ => False
  end.

(** The four bytes of the slot at [p] lie outside the [size] bytes at [a]. *)
Definition slot_apart (p a size : Z) : Prop :=
  p + slot_size ≤ a ∨ a + size ≤ p.

(** The slot at [p] is not the object [o] at [a] and shares no byte with it. *)
Definition object_apart (p a : Z) (o : object) : Prop :=
  p ≠ a ∧ slot_apart p a (object_size o).

(** ** A small decoder to run the wrapper against

    A stand-in for libwebp over a two-byte header (width, height) followed by
    the RGBA payload, allocating the result above every live object.  It
    inhabits the three contracts and lets the wrapper be evaluated. *)
Module Toy.

Definition byte_val (b : Byte.byte) : Z := Z.of_N (Byte.to_N b).

Definition header (bs : list Byte.byte) : option (Z * Z * list Byte.byte) :=
  match bs with
  | bw :: bh :: px => Some (byte_val bw, byte_val bh, px)
  | _ => None
  end.

Definition next_free (m : mem) : Z := 1 + foldr Z.max 0 (elements (dom m)).

Definition get_info (m : mem) (data size : Z) (wh : Z * Z) : Z * (Z * Z) :=
  match input_bytes m data size ≫= header with
  | Some (w, h, _) => (1, (w, h))
  | None => (0, wh)
  end.

Definition decode_rgba (m : mem) (data size : Z) (wh : Z * Z) : mem * Z * (Z * Z) :=
  match input_bytes m data size ≫= header with
  | Some (w, h, px) =>
      if decide (Z.of_nat (length px) = w * h * 4)
      then (<[next_free m := OBytes px]> m, next_free m, (w, h))
      else (m, NULL, (w, h))
  | None => (m, NULL, wh)
  end.

Definition free (m : mem) (p : Z) : mem := delete p m.

Definition lib : libwebp :=
  {| WebPGetInfo := get_info; WebPDecodeRGBA := decode_rgba; WebPFree := free |}.

Definition bytes (l : list N) : list Byte.byte :=
  (λ n, default Byte.x00 (Byte.of_N n)) <$> l.

(** A 2x1 image at address 16 and three output slots at 64, 72 and 76. *)
Definition image : list Byte.byte := bytes [2; 1; 10; 20; 30; 255; 40; 50; 60; 255]%N.

Definition heap : mem :=
  {[ 16 := OBytes image; 64 := OPtr 0; 72 := OInt 0; 76 := OInt 0 ]}.

(** The same with a header that declares width 0. *)
Definition heap_zero_width : mem :=
  {[ 16 := OBytes (bytes [0; 1]%N); 64 := OPtr 0; 72 := OInt 0; 76 := OInt 0 ]}.

(** The store after one decode of the image, for decoding it a second time. *)
Definition heap_decoded : mem :=
  final_mem (webp_decode_rgba lib 16 10 64 72 76 heap).

End Toy.

(** ** Reading a trace

    The calls into libwebp among the events of a trace, in order. *)
Definition is_library_call (e : event) : bool :=
  match e with
  | EvStore _ _ => false
  | EvGetInfo _ _ | EvDecodeRGBA _ _ | EvFree _ => true
  end.

Definition library_calls (tr : list event) : list event :=
  List.filter is_library_call tr.

(** An event of one kind cannot occur in a trace made of other kinds. *)
Ltac not_in_trace H :=
  repeat (apply elem_of_cons in H as [H | H]; [discriminate|]);
  by apply elem_of_nil in H.

(** ** The paths of [webp_decode_rgba] *)

Lemma webp_decode_rgba_run lib webp_data data_size out_rgba width height m :
  decode_run lib webp_data data_size out_rgba width height m
    (webp_decode_rgba lib webp_data data_size out_rgba width height m).
Proof.
  unfold webp_decode_rgba.
  destruct (webp_data =? 0) eqn:Hd; [apply run_bad_arguments; lia|].
  destruct (data_size =? 0) eqn:Hn; [apply run_bad_arguments; lia|].
  destruct (out_rgba =? 0) eqn:Ho; [apply run_bad_arguments; lia|].
  destruct (width =? 0) eqn:Hw; [apply run_bad_arguments; lia|].
  destruct (height =? 0) eqn:Hh; [apply run_bad_arguments; lia|].
  cbn [orb]. unfold mbind, M_bind, call_WebPGetInfo.
  destruct (WebPGetInfo lib m webp_data data_size (0, 0)) as [ok [w h]] eqn:Hinfo.
  destruct (ok =? 0) eqn:Hok;
    [cbn; eapply run_bad_header; eauto; lia|].
  destruct (w <=? 0) eqn:Hlw;
    [cbn; eapply run_bad_header; eauto; lia|].
  destruct (h <=? 0) eqn:Hlh;
    [cbn; eapply run_bad_header; eauto; lia|].
  cbn [orb]. unfold call_WebPDecodeRGBA.
  destruct (WebPDecodeRGBA lib m webp_data data_size (w, h)) as [[m' rgba] [w' h']] eqn:Hdec.
  destruct (rgba =? 0) eqn:Hr.
  - assert (rgba = 0) as -> by lia. cbn.
    eapply run_decode_failed; eauto; lia.
  - cbn. eapply run_decoded; eauto; lia.
Qed.

(** ** The guards *)

(** C9: with a null [webp_data], [out_rgba], [width] or [height] the call is
    the computation that returns 0 and does nothing else: in every store it
    returns 0, leaves the store as it was and emits no event, so libwebp is
    not called and no pointer is dereferenced. *)
Theorem null_argument_rejected lib webp_data data_size out_rgba width height :
  webp_data = NULL ∨ out_rgba = NULL ∨ width = NULL ∨ height = NULL →
  webp_decode_rgba lib webp_data data_size out_rgba width height = mret 0 ∧
  ∀ m, webp_decode_rgba lib webp_data data_size out_rgba width height m = (0, m, []).
Proof.
  intros Hnull.
  assert (webp_decode_rgba lib webp_data data_size out_rgba width height = mret 0)
    as Heq.
  { unfold webp_decode_rgba.
    destruct Hnull as [-> | [-> | [-> | ->]]];
      rewrite ?Z.eqb_refl, ?orb_true_r; reflexivity. }
  split; [exact Heq | intros m; rewrite Heq; reflexivity].
Qed.

(** C3: with [data_size = 0] the call returns 0, whatever the other
    arguments, without calling libwebp and without touching the store; it
    cannot succeed with an empty image. *)
Theorem zero_length_input_rejected lib webp_data out_rgba width height m :
  webp_decode_rgba lib webp_data 0 out_rgba width height m = (0, m, []).
Proof.
  unfold webp_decode_rgba. rewrite orb_true_r. reflexivity.
Qed.

(** C4: when [WebPGetInfo] reports a width or a height that is not
    positive, the call returns 0 with the store unchanged, and neither calls
    [WebPDecodeRGBA] nor stores anything. *)
Theorem zero_dimension_rejected
    lib webp_data data_size out_rgba width height m ok w h :
  WebPGetInfo lib m webp_data data_size (0, 0) = (ok, (w, h)) →
  w ≤ 0 ∨ h ≤ 0 →
  ∃ tr,
    webp_decode_rgba lib webp_data data_size out_rgba width height m = (0, m, tr) ∧
    (∀ d n, EvDecodeRGBA d n ∉ tr) ∧
    (∀ p o, EvStore p o ∉ tr).
Proof.
  intros Hhdr Hdim.
  destruct (webp_decode_rgba_run lib webp_data data_size out_rgba width height m)
    as [Hargs | ok0 w0 h0 ? ? ? ? ? Hinfo Hbad
        | ok0 w0 h0 mdec wh' ? ? ? ? ? Hinfo ? ? ? Hdec
        | ok0 w0 h0 mdec rgba w' h' ? ? ? ? ? Hinfo ? ? ? Hdec Hrgba];
    try (rewrite Hhdr in Hinfo; injection Hinfo as <- <- <-; lia).
  - exists []. repeat split; intros ? ? Hin; not_in_trace Hin.
  - exists [EvGetInfo webp_data data_size].
    repeat split; intros ? ? Hin; not_in_trace Hin.
Qed.

(** ** The return value *)

(** C10: the call returns 0 or 1, and it returns 1 exactly when it has
    stored into [*out_rgba] a non-null pointer that [WebPDecodeRGBA]
    returned for this input.  The store is the write itself: whenever the
    trace has it, the store left by the call is the decoder's with the
    pointer written at [out_rgba] and then the two dimensions, and
    [out_rgba] reads back the pointer unless a dimension slot has the same
    address. *)
Theorem return_value_is_success_flag
    lib webp_data data_size out_rgba width height m r m' tr :
  webp_decode_rgba lib webp_data data_size out_rgba width height m = (r, m', tr) →
  (r = 0 ∨ r = 1) ∧
  (r = 1 ↔
   ∃ rgba, rgba ≠ NULL ∧
     (∃ wh mdec wh',
        WebPDecodeRGBA lib m webp_data data_size wh = (mdec, rgba, wh')) ∧
     EvStore out_rgba (OPtr rgba) ∈ tr) ∧
  (∀ rgba, EvStore out_rgba (OPtr rgba) ∈ tr →
     ∃ wh mdec w' h',
       WebPDecodeRGBA lib m webp_data data_size wh = (mdec, rgba, (w', h')) ∧
       m' = <[height := OInt h']> (<[width := OInt w']>
              (<[out_rgba := OPtr rgba]> mdec)) ∧
       (out_rgba ≠ width → out_rgba ≠ height →
        m' !! out_rgba = Some (OPtr rgba))).
Proof.
  destruct (webp_decode_rgba_run lib webp_data data_size out_rgba width height m)
    as [Hargs | ok w h ? ? ? ? ? Hinfo Hbad
        | ok w h mdec wh' ? ? ? ? ? Hinfo ? ? ? Hdec
        | ok w h mdec rgba w' h' ? ? ? ? ? Hinfo ? ? ? Hdec Hrgba];
    intros [= <- <- <-].
  - split; [by left|].
    split; [split; [done|]; intros (? & _ & _ & Hin); not_in_trace Hin|].
    intros ? Hin. not_in_trace Hin.
  - split; [by left|].
    split; [split; [done|]; intros (? & _ & _ & Hin); not_in_trace Hin|].
    intros ? Hin. not_in_trace Hin.
  - split; [by left|].
    split; [split; [done|]; intros (? & _ & _ & Hin); not_in_trace Hin|].
    intros ? Hin. not_in_trace Hin.
  - split; [by right|]. split.
    + split; [|done]. intros _.
      exists rgba. split; [done|]. split; [by eauto|].
      do 2 apply list_elem_of_further. apply list_elem_of_here.
    + intros rgba0 Hin.
      do 2 (apply elem_of_cons in Hin as [Hin | Hin]; [discriminate|]).
      apply elem_of_cons in Hin as [[= ->] | Hin].
      * exists (w, h), mdec, w', h'. split; [done|]. split; [done|].
        intros ? ?. rewrite !lookup_insert_ne by congruence.
        by rewrite lookup_insert_eq.
      * not_in_trace Hin.
Qed.

(** C2: a call that does not succeed returns 0 and performs no store at
    all: nothing is written through [out_rgba], [width] or [height].  The
    store it leaves is the one it found, or the one [WebPDecodeRGBA] left
    when it returned null, so no buffer pointer reaches the caller, and
    every object the decoder call leaves alone is as it was. *)
Theorem failure_is_all_or_nothing
    lib webp_data data_size out_rgba width height m r m' tr :
  webp_decode_rgba lib webp_data data_size out_rgba width height m = (r, m', tr) →
  r ≠ 1 →
  r = 0 ∧
  (∀ p o, EvStore p o ∉ tr) ∧
  (m' = m ∨
   ∃ wh wh', WebPDecodeRGBA lib m webp_data data_size wh = (m', NULL, wh')) ∧
  (∀ a, (∀ wh, (WebPDecodeRGBA lib m webp_data data_size wh).1.1 !! a = m !! a) →
        m' !! a = m !! a).
Proof.
  destruct (webp_decode_rgba_run lib webp_data data_size out_rgba width height m)
    as [Hargs | ok w h ? ? ? ? ? Hinfo Hbad
        | ok w h mdec wh' ? ? ? ? ? Hinfo ? ? ? Hdec
        | ok w h mdec rgba w' h' ? ? ? ? ? Hinfo ? ? ? Hdec Hrgba];
    intros [= <- <- <-] Hfail.
  - split; [done|]. split; [intros p o Hin; not_in_trace Hin|].
    split; [by left | done].
  - split; [done|]. split; [intros p o Hin; not_in_trace Hin|].
    split; [by left | done].
  - split; [done|]. split; [intros p o Hin; not_in_trace Hin|].
    split; [right; by eauto|].
    intros a Ha. specialize (Ha (w, h)). by rewrite Hdec in Ha.
  - done.
Qed.

(** ** Success *)

Lemma rgba_offset_in_buffer px w h x y c :
  rgba8_buffer px w h →
  0 ≤ x < w → 0 ≤ y < h → 0 ≤ c < 4 →
  is_Some (px !! Z.to_nat (rgba_offset w x y c)).
Proof.
  unfold rgba8_buffer, rgba_offset. intros Hlen Hx Hy Hc.
  apply lookup_lt_is_Some. nia.
Qed.

(** C1: when the call returns 1, the pointer it stored through [out_rgba]
    is the one [WebPDecodeRGBA] returned, it names a row-major RGBA8 buffer
    of [w * h * 4] bytes (every channel of every pixel has its byte), and
    the integers stored through [width] and [height] are [w] and [h], the
    dimensions [WebPGetInfo] read from the header.  The stores happen in
    source order, so a slot reads back its value unless a later store went
    to the same address. *)
Theorem success_stores_buffer_and_header_dimensions
    lib webp_data data_size out_rgba width height m m' tr :
  decoder_output_contract lib →
  webp_decode_rgba lib webp_data data_size out_rgba width height m = (1, m', tr) →
  ∃ ok w h mdec rgba px,
    WebPGetInfo lib m webp_data data_size (0, 0) = (ok, (w, h)) ∧
    ok ≠ 0 ∧ 0 < w ∧ 0 < h ∧
    WebPDecodeRGBA lib m webp_data data_size (w, h) = (mdec, rgba, (w, h)) ∧
    rgba ≠ NULL ∧
    mdec !! rgba = Some (OBytes px) ∧
    rgba8_buffer px w h ∧
    (∀ x y c, 0 ≤ x < w → 0 ≤ y < h → 0 ≤ c < 4 →
              is_Some (px !! Z.to_nat (rgba_offset w x y c))) ∧
    tr = [EvGetInfo webp_data data_size; EvDecodeRGBA webp_data data_size;
          EvStore out_rgba (OPtr rgba); EvStore width (OInt w);
          EvStore height (OInt h)] ∧
    m' = <[height := OInt h]> (<[width := OInt w]> (<[out_rgba := OPtr rgba]> mdec)) ∧
    m' !! height = Some (OInt h) ∧
    (width ≠ height → m' !! width = Some (OInt w)) ∧
    (out_rgba ≠ width → out_rgba ≠ height → m' !! out_rgba = Some (OPtr rgba)) ∧
    (rgba ≠ out_rgba → rgba ≠ width → rgba ≠ height →
     m' !! rgba = Some (OBytes px)).
Proof.
  intros Hlib.
  destruct (webp_decode_rgba_run lib webp_data data_size out_rgba width height m)
    as [Hargs | ok w h ? ? ? ? ? Hinfo Hbad
        | ok w h mdec wh' ? ? ? ? ? Hinfo ? ? ? Hdec
        | ok w h mdec rgba w' h' ? ? ? ? ? Hinfo Hok Hw Hh Hdec Hrgba];
    intros [= <- <-].
  destruct (Hlib _ _ _ _ _ _ _ _ _ _ _ _ Hinfo Hok Hdec Hrgba)
    as [[= -> ->] (px & Hpx & Hshape)].
  exists ok, w, h, mdec, rgba, px.
  repeat (split; [done|]).
  split; [intros x y c; by apply rgba_offset_in_buffer|].
  repeat (split; [done|]).
  split; [by rewrite lookup_insert_eq|].
  split; [intros ?; rewrite lookup_insert_ne by congruence;
          by rewrite lookup_insert_eq|].
  split; [intros ? ?; rewrite !lookup_insert_ne by congruence;
          by rewrite lookup_insert_eq|].
  intros ? ? ?. by rewrite !lookup_insert_ne by congruence.
Qed.

(** ** The input buffer *)

Lemma input_bytes_negative_size (m : mem) data size :
  size < 0 → input_bytes m data size = None.
Proof.
  intros Hneg. unfold input_bytes.
  destruct (m !! data) as [[bs | z | q]|]; try done.
  case_decide; [lia | done].
Qed.

(** C7, as amended: in a call whose three slots each keep their four bytes
    outside the [data_size] input bytes at [webp_data], no store writes a
    byte of the input, and the input bytes are the same after the call as
    before it, whether the call returns 0 or 1. *)
Theorem input_kept_when_slots_lie_apart
    lib webp_data data_size out_rgba width height m r m' tr :
  decoder_keeps_input lib →
  slot_apart out_rgba webp_data data_size →
  slot_apart width webp_data data_size →
  slot_apart height webp_data data_size →
  webp_decode_rgba lib webp_data data_size out_rgba width height m = (r, m', tr) →
  (∀ e b, e ∈ tr → writes_byte e b → ¬ (webp_data ≤ b < webp_data + data_size)) ∧
  input_bytes m' webp_data data_size = input_bytes m webp_data data_size.
Proof.
  unfold slot_apart, slot_size. intros Hkeep Ho Hw Hh.
  destruct (webp_decode_rgba_run lib webp_data data_size out_rgba width height m)
    as [Hargs | ok w h ? ? ? ? ? Hinfo Hbad
        | ok w h mdec wh' ? ? ? ? ? Hinfo ? ? ? Hdec
        | ok w h mdec rgba w' h' ? Hsize ? ? ? Hinfo ? ? ? Hdec Hrgba];
    intros [= <- <- <-].
  - split; [|done]. intros e b Hin. not_in_trace Hin.
  - split; [|done]. intros e b Hin.
    apply list_elem_of_singleton in Hin as ->. done.
  - split.
    + intros e b Hin.
      apply elem_of_cons in Hin as [-> | Hin]; [done|].
      apply list_elem_of_singleton in Hin as ->. done.
    + specialize (Hkeep m webp_data data_size (w, h)). rewrite Hdec in Hkeep.
      cbn [fst] in Hkeep. unfold input_bytes. by rewrite Hkeep.
  - split.
    + intros e b Hin.
      apply elem_of_cons in Hin as [-> | Hin]; [done|].
      apply elem_of_cons in Hin as [-> | Hin]; [done|].
      apply elem_of_cons in Hin as [-> | Hin]; [cbn; unfold slot_size; lia|].
      apply elem_of_cons in Hin as [-> | Hin]; [cbn; unfold slot_size; lia|].
      apply list_elem_of_singleton in Hin as ->. cbn; unfold slot_size; lia.
    + destruct (Z_lt_le_dec data_size 0) as [Hneg | Hpos].
      * by rewrite !input_bytes_negative_size.
      * specialize (Hkeep m webp_data data_size (w, h)). rewrite Hdec in Hkeep.
        cbn [fst] in Hkeep. unfold input_bytes.
        rewrite !lookup_insert_ne by lia. by rewrite Hkeep.
Qed.

(** ** Determinism *)


(** ** [webp_free] *)

Lemma webp_free_run lib p m :
  webp_free lib p m = (tt, WebPFree lib m p, [EvFree p]).
Proof. reflexivity. Qed.

(** ** The small decoder meets the contracts *)


Lemma foldr_Zmax_upper (l : list Z) x : x ∈ l → x ≤ foldr Z.max 0 l.
Proof.
  induction 1 as [x l | x y l _ IH]; cbn; lia.
Qed.


Lemma toy_next_free_above (m : mem) p : is_Some (m !! p) → p < Toy.next_free m.
Proof.
  intros Hp. apply elem_of_dom, elem_of_elements, foldr_Zmax_upper in Hp.
  unfold Toy.next_free. lia.
Qed.

Lemma input_bytes_is_Some (m : mem) data size bs :
  input_bytes m data size = Some bs → is_Some (m !! data).
Proof.
  unfold input_bytes. destruct (m !! data) as [o|]; [eauto | discriminate].
Qed.

Lemma toy_output_contract : decoder_output_contract Toy.lib.
Proof.
  intros m data size wh0 ok w h wh1 m' rgba w' h'. cbn.
  unfold Toy.get_info, Toy.decode_rgba.
  destruct (input_bytes m data size ≫= Toy.header) as [[[w0 h0] px]|];
    [|intros; simplify_eq].
  intros [= <- <- <-] _. case_decide as Hlen; intros [= <- <- <- <-] Hrgba; [|done].
  split; [done|]. exists px. by rewrite lookup_insert_eq.
Qed.


Lemma toy_keeps_input : decoder_keeps_input Toy.lib.
Proof.
  intros m data size wh. cbn. unfold Toy.decode_rgba.
  destruct (input_bytes m data size) as [bs|] eqn:Hin; cbn; [|done].
  destruct (Toy.header bs) as [[[w h] px]|]; [|done].
  case_decide; cbn; [|done].
  apply input_bytes_is_Some, toy_next_free_above in Hin.
  apply lookup_insert_ne. lia.
Qed.

(** ** The wrapper at work on the 2x1 image *)

Example decode_image :
  webp_decode_rgba Toy.lib 16 10 64 72 76 Toy.heap =
  (1,
   {[ 16 := OBytes Toy.image; 64 := OPtr 77; 72 := OInt 2; 76 := OInt 1;
      77 := OBytes (Toy.bytes [10; 20; 30; 255; 40; 50; 60; 255]%N) ]},
   [EvGetInfo 16 10; EvDecodeRGBA 16 10; EvStore 64 (OPtr 77);
    EvStore 72 (OInt 2); EvStore 76 (OInt 1)]).
Proof. vm_compute. reflexivity. Qed.

Example decode_image_cut_short :
  webp_decode_rgba Toy.lib 16 7 64 72 76 Toy.heap =
  (0, Toy.heap, [EvGetInfo 16 7; EvDecodeRGBA 16 7]).
Proof. vm_compute. reflexivity. Qed.

Example decode_zero_width :
  webp_decode_rgba Toy.lib 16 2 64 72 76 Toy.heap_zero_width =
  (0, Toy.heap_zero_width, [EvGetInfo 16 2]).
Proof. vm_compute. reflexivity. Qed.

Example decode_image_again :
  webp_decode_rgba Toy.lib 16 10 64 72 76 Toy.heap_decoded =
  (1,
   {[ 16 := OBytes Toy.image; 64 := OPtr 78; 72 := OInt 2; 76 := OInt 1;
      77 := OBytes (Toy.bytes [10; 20; 30; 255; 40; 50; 60; 255]%N);
      78 := OBytes (Toy.bytes [10; 20; 30; 255; 40; 50; 60; 255]%N) ]},
   [EvGetInfo 16 10; EvDecodeRGBA 16 10; EvStore 64 (OPtr 78);
    EvStore 72 (OInt 2); EvStore 76 (OInt 1)]).
Proof. vm_compute. reflexivity. Qed.

Lemma null_argument_rejected_witness :
  (16 = NULL ∨ 0 = NULL ∨ 72 = NULL ∨ 76 = NULL) ∧
  webp_decode_rgba Toy.lib 16 10 0 72 76 = mret 0 ∧
  ∀ m, webp_decode_rgba Toy.lib 16 10 0 72 76 m = (0, m, []).
Proof.
  split; [right; left; reflexivity|].
  apply null_argument_rejected. right; left; reflexivity.
Defined.

Lemma zero_dimension_rejected_witness :
  WebPGetInfo Toy.lib Toy.heap_zero_width 16 2 (0, 0) = (1, (0, 1)) ∧
  (0 ≤ 0 ∨ 1 ≤ 0) ∧
  ∃ tr,
    webp_decode_rgba Toy.lib 16 2 64 72 76 Toy.heap_zero_width =
      (0, Toy.heap_zero_width, tr) ∧
    (∀ d n, EvDecodeRGBA d n ∉ tr) ∧
    (∀ p o, EvStore p o ∉ tr).
Proof.
  split; [reflexivity|]. split; [left; lia|].
  apply (zero_dimension_rejected Toy.lib 16 2 64 72 76 Toy.heap_zero_width 1 0 1);
    [reflexivity | left; lia].
Defined.

Lemma return_value_is_success_flag_witness :
  webp_decode_rgba Toy.lib 16 10 64 72 76 Toy.heap =
    (1, Toy.heap_decoded,
     [EvGetInfo 16 10; EvDecodeRGBA 16 10; EvStore 64 (OPtr 77);
      EvStore 72 (OInt 2); EvStore 76 (OInt 1)]) ∧
  (1 = 0 ∨ 1 = 1) ∧
  (1 = 1 ↔
   ∃ rgba, rgba ≠ NULL ∧
     (∃ wh mdec wh', WebPDecodeRGBA Toy.lib Toy.heap 16 10 wh = (mdec, rgba, wh')) ∧
     EvStore 64 (OPtr rgba) ∈
       [EvGetInfo 16 10; EvDecodeRGBA 16 10; EvStore 64 (OPtr 77);
        EvStore 72 (OInt 2); EvStore 76 (OInt 1)]) ∧
  (∀ rgba,
     EvStore 64 (OPtr rgba) ∈
       [EvGetInfo 16 10; EvDecodeRGBA 16 10; EvStore 64 (OPtr 77);
        EvStore 72 (OInt 2); EvStore 76 (OInt 1)] →
     ∃ wh mdec w' h',
       WebPDecodeRGBA Toy.lib Toy.heap 16 10 wh = (mdec, rgba, (w', h')) ∧
       Toy.heap_decoded =
         <[76 := OInt h']> (<[72 := OInt w']> (<[64 := OPtr rgba]> mdec)) ∧
       (64 ≠ 72 → 64 ≠ 76 → Toy.heap_decoded !! 64 = Some (OPtr rgba))).
Proof.
  split; [vm_compute; reflexivity|].
  apply (return_value_is_success_flag Toy.lib 16 10 64 72 76 Toy.heap 1 Toy.heap_decoded).
  vm_compute; reflexivity.
Defined.

Lemma failure_is_all_or_nothing_witness :
  webp_decode_rgba Toy.lib 16 7 64 72 76 Toy.heap =
    (0, Toy.heap, [EvGetInfo 16 7; EvDecodeRGBA 16 7]) ∧
  0 ≠ 1 ∧
  0 = 0 ∧
  (∀ p o, EvStore p o ∉ [EvGetInfo 16 7; EvDecodeRGBA 16 7]) ∧
  (Toy.heap = Toy.heap ∨
   ∃ wh wh', WebPDecodeRGBA Toy.lib Toy.heap 16 7 wh = (Toy.heap, NULL, wh')) ∧
  (∀ a, (∀ wh, (WebPDecodeRGBA Toy.lib Toy.heap 16 7 wh).1.1 !! a = Toy.heap !! a) →
        Toy.heap !! a = Toy.heap !! a).
Proof.
  split; [vm_compute; reflexivity|]. split; [lia|].
  apply (failure_is_all_or_nothing Toy.lib 16 7 64 72 76 Toy.heap);
    [vm_compute; reflexivity | lia].
Defined.

Lemma success_stores_buffer_and_header_dimensions_witness :
  decoder_output_contract Toy.lib ∧
  webp_decode_rgba Toy.lib 16 10 64 72 76 Toy.heap =
    (1, Toy.heap_decoded,
     [EvGetInfo 16 10; EvDecodeRGBA 16 10; EvStore 64 (OPtr 77);
      EvStore 72 (OInt 2); EvStore 76 (OInt 1)]) ∧
  ∃ ok w h mdec rgba px,
    WebPGetInfo Toy.lib Toy.heap 16 10 (0, 0) = (ok, (w, h)) ∧
    ok ≠ 0 ∧ 0 < w ∧ 0 < h ∧
    WebPDecodeRGBA Toy.lib Toy.heap 16 10 (w, h) = (mdec, rgba, (w, h)) ∧
    rgba ≠ NULL ∧
    mdec !! rgba = Some (OBytes px) ∧
    rgba8_buffer px w h ∧
    (∀ x y c, 0 ≤ x < w → 0 ≤ y < h → 0 ≤ c < 4 →
              is_Some (px !! Z.to_nat (rgba_offset w x y c))) ∧
    [EvGetInfo 16 10; EvDecodeRGBA 16 10; EvStore 64 (OPtr 77);
     EvStore 72 (OInt 2); EvStore 76 (OInt 1)] =
    [EvGetInfo 16 10; EvDecodeRGBA 16 10;
     EvStore 64 (OPtr rgba); EvStore 72 (OInt w); EvStore 76 (OInt h)] ∧
    Toy.heap_decoded =
      <[76 := OInt h]> (<[72 := OInt w]> (<[64 := OPtr rgba]> mdec)) ∧
    Toy.heap_decoded !! 76 = Some (OInt h) ∧
    (72 ≠ 76 → Toy.heap_decoded !! 72 = Some (OInt w)) ∧
    (64 ≠ 72 → 64 ≠ 76 → Toy.heap_decoded !! 64 = Some (OPtr rgba)) ∧
    (rgba ≠ 64 → rgba ≠ 72 → rgba ≠ 76 →
     Toy.heap_decoded !! rgba = Some (OBytes px)).
Proof.
  split; [exact toy_output_contract|]. split; [vm_compute; reflexivity|].
  apply (success_stores_buffer_and_header_dimensions Toy.lib 16 10 64 72 76 Toy.heap);
    [exact toy_output_contract | vm_compute; reflexivity].
Defined.

Lemma input_kept_when_slots_lie_apart_witness :
  decoder_keeps_input Toy.lib ∧
  slot_apart 64 16 10 ∧
  slot_apart 72 16 10 ∧
  slot_apart 76 16 10 ∧
  webp_decode_rgba Toy.lib 16 10 64 72 76 Toy.heap =
    (1, Toy.heap_decoded,
     [EvGetInfo 16 10; EvDecodeRGBA 16 10; EvStore 64 (OPtr 77);
      EvStore 72 (OInt 2); EvStore 76 (OInt 1)]) ∧
  (∀ e b,
     e ∈ [EvGetInfo 16 10; EvDecodeRGBA 16 10; EvStore 64 (OPtr 77);
          EvStore 72 (OInt 2); EvStore 76 (OInt 1)] →
     writes_byte e b → ¬ (16 ≤ b < 16 + 10)) ∧
  input_bytes Toy.heap_decoded 16 10 = input_bytes Toy.heap 16 10.
Proof.
  assert (slot_apart 64 16 10) as Hout by (right; lia).
  assert (slot_apart 72 16 10) as Hwidth by (right; lia).
  assert (slot_apart 76 16 10) as Hheight by (right; lia).
  assert (webp_decode_rgba Toy.lib 16 10 64 72 76 Toy.heap =
            (1, Toy.heap_decoded,
             [EvGetInfo 16 10; EvDecodeRGBA 16 10; EvStore 64 (OPtr 77);
              EvStore 72 (OInt 2); EvStore 76 (OInt 1)])) as Hrun
    by (vm_compute; reflexivity).
  repeat (split; [first [exact toy_keeps_input | assumption]|]).
  exact (input_kept_when_slots_lie_apart Toy.lib 16 10 64 72 76 Toy.heap _ _ _
           toy_keeps_input Hout Hwidth Hheight Hrun).
Defined.

(** C7, as first stated, fails: with the address of the input buffer passed
    as the [width] slot, the decoder keeps the input and the call returns 1,
    yet line 18 has written the width over the first input bytes. *)
Lemma input_overwritten_through_the_width_slot :
  decoder_keeps_input Toy.lib ∧
  ∃ m' tr,
    webp_decode_rgba Toy.lib 16 10 64 16 76 Toy.heap = (1, m', tr) ∧
    EvStore 16 (OInt 2) ∈ tr ∧
    writes_byte (EvStore 16 (OInt 2)) 16 ∧
    input_bytes m' 16 10 ≠ input_bytes Toy.heap 16 10.
Proof.
  split; [exact toy_keeps_input|].
  eexists _, _. split; [vm_compute; reflexivity|].
  split; [do 3 apply list_elem_of_further; apply list_elem_of_here|].
  split; [cbn; unfold slot_size; lia|].
  vm_compute. discriminate.
Qed.


(** ** More on the paths of [webp_decode_rgba] *)

(** X1: the call returns 1 exactly when all five argument checks pass, the
    probe accepts the input with a positive width and height, and the
    decoder, given the probe's dimensions, returns a non-null pointer. *)
Theorem success_iff_all_checks_pass
    lib webp_data data_size out_rgba width height m r m' tr :
  webp_decode_rgba lib webp_data data_size out_rgba width height m = (r, m', tr) →
  (r = 1 ↔
   webp_data ≠ NULL ∧ data_size ≠ 0 ∧ out_rgba ≠ NULL ∧ width ≠ NULL ∧ height ≠ NULL ∧
   ∃ ok w h,
     WebPGetInfo lib m webp_data data_size (0, 0) = (ok, (w, h)) ∧
     ok ≠ 0 ∧ 0 < w ∧ 0 < h ∧
     (WebPDecodeRGBA lib m webp_data data_size (w, h)).1.2 ≠ NULL).
Proof.
  destruct (webp_decode_rgba_run lib webp_data data_size out_rgba width height m)
    as [Hargs | ok w h ? ? ? ? ? Hinfo Hbad
        | ok w h mdec wh' ? ? ? ? ? Hinfo ? ? ? Hdec
        | ok w h mdec rgba w' h' ? ? ? ? ? Hinfo ? ? ? Hdec Hrgba];
    intros [= <- <- <-].
  - split; [done|]. intros (? & ? & ? & ? & ? & _). lia.
  - split; [done|]. intros (_ & _ & _ & _ & _ & ok' & w0 & h0 & Hinfo' & ? & ? & ? & _).
    rewrite Hinfo in Hinfo'. injection Hinfo' as <- <- <-. lia.
  - split; [done|]. intros (_ & _ & _ & _ & _ & ok' & w0 & h0 & Hinfo' & _ & _ & _ & Hnn).
    rewrite Hinfo in Hinfo'. injection Hinfo' as <- <- <-.
    rewrite Hdec in Hnn. exfalso. by apply Hnn.
  - split; [|done]. intros _. repeat (split; [done|]).
    exists ok, w, h. repeat (split; [done|]). by rewrite Hdec.
Qed.

(** X2: when the argument checks pass and the probe returns 0 or leaves a
    width or height that is not positive, the call is over after the probe:
    it returns 0, the store is untouched and the only event is the probe. *)
Theorem probe_rejection_ends_the_call
    lib webp_data data_size out_rgba width height m ok w h :
  webp_data ≠ NULL → data_size ≠ 0 → out_rgba ≠ NULL → width ≠ NULL → height ≠ NULL →
  WebPGetInfo lib m webp_data data_size (0, 0) = (ok, (w, h)) →
  ok = 0 ∨ w ≤ 0 ∨ h ≤ 0 →
  webp_decode_rgba lib webp_data data_size out_rgba width height m =
    (0, m, [EvGetInfo webp_data data_size]).
Proof.
  intros Hd Hn Ho Hw Hh Hhdr Hrej.
  destruct (webp_decode_rgba_run lib webp_data data_size out_rgba width height m)
    as [Hargs | ok0 w0 h0 ? ? ? ? ? Hinfo Hbad
        | ok0 w0 h0 mdec wh' ? ? ? ? ? Hinfo ? ? ? Hdec
        | ok0 w0 h0 mdec rgba w' h' ? ? ? ? ? Hinfo ? ? ? Hdec Hrgba];
    try (rewrite Hhdr in Hinfo; injection Hinfo as <- <- <-);
    first [reflexivity | exfalso; lia].
Qed.

(** X3: when the probe accepts the input but the decoder returns null, the
    call returns 0 without a store; the store is the one the decoder left
    and the dimensions the decoder wrote are dropped. *)
Theorem null_from_the_decoder_is_failure
    lib webp_data data_size out_rgba width height m ok w h mdec wh' :
  webp_data ≠ NULL → data_size ≠ 0 → out_rgba ≠ NULL → width ≠ NULL → height ≠ NULL →
  WebPGetInfo lib m webp_data data_size (0, 0) = (ok, (w, h)) →
  ok ≠ 0 → 0 < w → 0 < h →
  WebPDecodeRGBA lib m webp_data data_size (w, h) = (mdec, NULL, wh') →
  webp_decode_rgba lib webp_data data_size out_rgba width height m =
    (0, mdec, [EvGetInfo webp_data data_size; EvDecodeRGBA webp_data data_size]).
Proof.
  intros Hd Hn Ho Hw Hh Hhdr Hok Hpw Hph Hnull.
  destruct (webp_decode_rgba_run lib webp_data data_size out_rgba width height m)
    as [Hargs | ok0 w0 h0 ? ? ? ? ? Hinfo Hbad
        | ok0 w0 h0 mdec0 wh0 ? ? ? ? ? Hinfo ? ? ? Hdec
        | ok0 w0 h0 mdec0 rgba w' h' ? ? ? ? ? Hinfo ? ? ? Hdec Hrgba];
    try (rewrite Hhdr in Hinfo; injection Hinfo as <- <- <-);
    try (exfalso; lia).
  - rewrite Hnull in Hdec. injection Hdec as <- <-. reflexivity.
  - rewrite Hnull in Hdec. injection Hdec as <- <- ->. done.
Qed.

(** X4: when the probe accepts the input and the decoder returns a buffer,
    the call returns 1 after three stores, in this order: the pointer
    through [out_rgba], then through [width] and [height] the dimensions the
    decoder left in [w] and [h], which are the ones stored even where they
    differ from the probe's. *)
Theorem decoded_result_is_stored
    lib webp_data data_size out_rgba width height m ok w h mdec rgba w' h' :
  webp_data ≠ NULL → data_size ≠ 0 → out_rgba ≠ NULL → width ≠ NULL → height ≠ NULL →
  WebPGetInfo lib m webp_data data_size (0, 0) = (ok, (w, h)) →
  ok ≠ 0 → 0 < w → 0 < h →
  WebPDecodeRGBA lib m webp_data data_size (w, h) = (mdec, rgba, (w', h')) →
  rgba ≠ NULL →
  webp_decode_rgba lib webp_data data_size out_rgba width height m =
    (1,
     <[height := OInt h']> (<[width := OInt w']> (<[out_rgba := OPtr rgba]> mdec)),
     [EvGetInfo webp_data data_size; EvDecodeRGBA webp_data data_size;
      EvStore out_rgba (OPtr rgba); EvStore width (OInt w'); EvStore height (OInt h')]).
Proof.
  intros Hd Hn Ho Hw Hh Hhdr Hok Hpw Hph Hbuf Hnn.
  destruct (webp_decode_rgba_run lib webp_data data_size out_rgba width height m)
    as [Hargs | ok0 w0 h0 ? ? ? ? ? Hinfo Hbad
        | ok0 w0 h0 mdec0 wh0 ? ? ? ? ? Hinfo ? ? ? Hdec
        | ok0 w0 h0 mdec0 rgba0 w0' h0' ? ? ? ? ? Hinfo ? ? ? Hdec Hrgba];
    try (rewrite Hhdr in Hinfo; injection Hinfo as <- <- <-);
    try (exfalso; lia).
  - rewrite Hbuf in Hdec. injection Hdec as _ ? _. done.
  - rewrite Hbuf in Hdec. injection Hdec as <- <- <- <-. reflexivity.
Qed.

(** ** What a call does to the library and to the store *)

(** X5: in every call the calls into libwebp are an initial part of "probe,
    then decoder", each at most once and each on exactly the caller's
    pointer and size; [WebPFree] is never called, so a returned buffer is
    never released by the wrapper. *)
Theorem library_calls_follow_the_protocol
    lib webp_data data_size out_rgba width height m r m' tr :
  webp_decode_rgba lib webp_data data_size out_rgba width height m = (r, m', tr) →
  library_calls tr `prefix_of`
    [EvGetInfo webp_data data_size; EvDecodeRGBA webp_data data_size] ∧
  (∀ p, EvFree p ∉ tr).
Proof.
  destruct (webp_decode_rgba_run lib webp_data data_size out_rgba width height m)
    as [Hargs | ok w h ? ? ? ? ? Hinfo Hbad
        | ok w h mdec wh' ? ? ? ? ? Hinfo ? ? ? Hdec
        | ok w h mdec rgba w' h' ? ? ? ? ? Hinfo ? ? ? Hdec Hrgba];
    intros [= <- <- <-]; cbn; (split; [|intros p Hin; not_in_trace Hin]).
  - by eexists.
  - by eexists.
  - by exists [].
  - by exists [].
Qed.

(** X6: every store of a call goes through one of the three slot
    arguments, which is then not null, and happens only in a call that
    returns 1: through [out_rgba] a non-null pointer, through [width] and
    [height] an integer.  No byte buffer is ever written. *)
Theorem stores_go_through_the_slots
    lib webp_data data_size out_rgba width height m r m' tr p o :
  webp_decode_rgba lib webp_data data_size out_rgba width height m = (r, m', tr) →
  EvStore p o ∈ tr →
  r = 1 ∧ p ≠ NULL ∧
  ((p = out_rgba ∧ ∃ q, o = OPtr q ∧ q ≠ NULL) ∨
   ((p = width ∨ p = height) ∧ ∃ z, o = OInt z)).
Proof.
  destruct (webp_decode_rgba_run lib webp_data data_size out_rgba width height m)
    as [Hargs | ok w h ? ? ? ? ? Hinfo Hbad
        | ok w h mdec wh' ? ? ? ? ? Hinfo ? ? ? Hdec
        | ok w h mdec rgba w' h' ? ? ? ? ? Hinfo ? ? ? Hdec Hrgba];
    intros [= <- <- <-] Hin; try by not_in_trace Hin.
  do 2 (apply elem_of_cons in Hin as [Hin | Hin]; [discriminate|]).
  apply elem_of_cons in Hin as [[= -> ->] | Hin]; [by eauto 10|].
  apply elem_of_cons in Hin as [[= -> ->] | Hin]; [by eauto 10|].
  apply elem_of_cons in Hin as [[= -> ->] | Hin]; [by eauto 10|].
  by apply elem_of_nil in Hin.
Qed.

(** X7: whatever a call returns, an object that shares no byte with the
    four bytes of any of the three slots is the same after the call as
    before it, provided the decoder call leaves it alone. *)
Theorem objects_apart_from_the_slots_are_kept
    lib webp_data data_size out_rgba width height m r m' tr a o :
  webp_decode_rgba lib webp_data data_size out_rgba width height m = (r, m', tr) →
  m !! a = Some o →
  object_apart out_rgba a o → object_apart width a o → object_apart height a o →
  (∀ wh, (WebPDecodeRGBA lib m webp_data data_size wh).1.1 !! a = m !! a) →
  (∀ e b, e ∈ tr → writes_byte e b → ¬ (a ≤ b < a + object_size o)) ∧
  m' !! a = Some o.
Proof.
  unfold object_apart, slot_apart, slot_size.
  destruct (webp_decode_rgba_run lib webp_data data_size out_rgba width height m)
    as [Hargs | ok w h ? ? ? ? ? Hinfo Hbad
        | ok w h mdec wh' ? ? ? ? ? Hinfo ? ? ? Hdec
        | ok w h mdec rgba w' h' ? ? ? ? ? Hinfo ? ? ? Hdec Hrgba];
    intros [= <- <- <-] Ha [Ho Ho'] [Hw Hw'] [Hh Hh'] Hkeep.
  - split; [|done]. intros e b Hin. not_in_trace Hin.
  - split; [|done]. intros e b Hin.
    apply list_elem_of_singleton in Hin as ->. done.
  - split.
    + intros e b Hin.
      apply elem_of_cons in Hin as [-> | Hin]; [done|].
      apply list_elem_of_singleton in Hin as ->. done.
    + specialize (Hkeep (w, h)). rewrite Hdec in Hkeep. by rewrite <- Ha.
  - split.
    + intros e b Hin.
      apply elem_of_cons in Hin as [-> | Hin]; [done|].
      apply elem_of_cons in Hin as [-> | Hin]; [done|].
      apply elem_of_cons in Hin as [-> | Hin]; [cbn; unfold slot_size; lia|].
      apply elem_of_cons in Hin as [-> | Hin]; [cbn; unfold slot_size; lia|].
      apply list_elem_of_singleton in Hin as ->. cbn; unfold slot_size; lia.
    + specialize (Hkeep (w, h)). rewrite Hdec in Hkeep. cbn [fst] in Hkeep.
      rewrite !lookup_insert_ne by congruence. by rewrite Hkeep.
Qed.

(** X8: [width] and [height] may be the same address.  A call that returns
    1 then stores, into that one slot, first the width and then the height
    the decoder left in [w] and [h]; the slot ends up holding the height. *)
Theorem shared_dimension_slot_holds_the_height
    lib webp_data data_size out_rgba dims m m' tr :
  webp_decode_rgba lib webp_data data_size out_rgba dims dims m = (1, m', tr) →
  ∃ ok w h mdec rgba w' h',
    WebPGetInfo lib m webp_data data_size (0, 0) = (ok, (w, h)) ∧
    WebPDecodeRGBA lib m webp_data data_size (w, h) = (mdec, rgba, (w', h')) ∧
    tr = [EvGetInfo webp_data data_size; EvDecodeRGBA webp_data data_size;
          EvStore out_rgba (OPtr rgba); EvStore dims (OInt w'); EvStore dims (OInt h')] ∧
    m' !! dims = Some (OInt h').
Proof.
  destruct (webp_decode_rgba_run lib webp_data data_size out_rgba dims dims m)
    as [Hargs | ok w h ? ? ? ? ? Hinfo Hbad
        | ok w h mdec wh' ? ? ? ? ? Hinfo ? ? ? Hdec
        | ok w h mdec rgba w' h' ? ? ? ? ? Hinfo ? ? ? Hdec Hrgba];
    intros [= <- <-].
  exists ok, w, h, mdec, rgba, w', h'. repeat (split; [done|]).
  by rewrite lookup_insert_eq.
Qed.

(** X9: the slot addresses matter only for being null or not and for where
    the results go.  Two calls on the same store and input with different
    non-null slots return the same value and make the same library calls;
    a failing call leaves the same store either way, and after any call an
    object that shares no byte with any of the six slots is the same in
    both stores. *)
Theorem slot_addresses_do_not_steer_the_decode
    lib webp_data data_size m
    out_rgba1 width1 height1 r1 m1 tr1
    out_rgba2 width2 height2 r2 m2 tr2 :
  out_rgba1 ≠ NULL → width1 ≠ NULL → height1 ≠ NULL →
  out_rgba2 ≠ NULL → width2 ≠ NULL → height2 ≠ NULL →
  webp_decode_rgba lib webp_data data_size out_rgba1 width1 height1 m = (r1, m1, tr1) →
  webp_decode_rgba lib webp_data data_size out_rgba2 width2 height2 m = (r2, m2, tr2) →
  r1 = r2 ∧
  library_calls tr1 = library_calls tr2 ∧
  (r1 = 0 → m1 = m2) ∧
  (∀ a o, m1 !! a = Some o →
          object_apart out_rgba1 a o → object_apart width1 a o →
          object_apart height1 a o →
          object_apart out_rgba2 a o → object_apart width2 a o →
          object_apart height2 a o →
          m2 !! a = Some o).
Proof.
  intros Ho1 Hw1 Hh1 Ho2 Hw2 Hh2.
  destruct (webp_decode_rgba_run lib webp_data data_size out_rgba1 width1 height1 m)
    as [Hargs1 | ok1 w1 h1 ? ? ? ? ? Hinfo1 Hbad1
        | ok1 w1 h1 mdec1 wh1' ? ? ? ? ? Hinfo1 ? ? ? Hdec1
        | ok1 w1 h1 mdec1 rgba1 w1' h1' ? ? ? ? ? Hinfo1 ? ? ? Hdec1 Hrgba1];
    destruct (webp_decode_rgba_run lib webp_data data_size out_rgba2 width2 height2 m)
    as [Hargs2 | ok2 w2 h2 ? ? ? ? ? Hinfo2 Hbad2
        | ok2 w2 h2 mdec2 wh2' ? ? ? ? ? Hinfo2 ? ? ? Hdec2
        | ok2 w2 h2 mdec2 rgba2 w2' h2' ? ? ? ? ? Hinfo2 ? ? ? Hdec2 Hrgba2];
    intros [= <- <- <-] [= <- <- <-];
    try (exfalso; lia);
    try (rewrite Hinfo1 in Hinfo2; injection Hinfo2 as <- <- <-);
    try (exfalso; lia);
    try (rewrite Hdec1 in Hdec2; simplify_eq);
    try done.
  repeat split; try done.
  intros a o Ha [? _] [? _] [? _] [? _] [? _] [? _].
  rewrite !lookup_insert_ne in Ha by congruence.
  by rewrite !lookup_insert_ne by congruence.
Qed.

(** ** [webp_free] after [webp_decode_rgba] *)

(** X10: after a call that returned 1, with [out_rgba] apart from the two
    dimension slots, the pointer read back from [*out_rgba] is the one the
    decoder returned; freeing it with [webp_free] right after the decode
    adds one [WebPFree] call, on that pointer, to the events of the decode,
    and acts on the store in which the three slots are written. *)
Theorem free_after_decode_releases_the_decoded_buffer
    lib webp_data data_size out_rgba width height m m' tr :
  webp_decode_rgba lib webp_data data_size out_rgba width height m = (1, m', tr) →
  out_rgba ≠ width → out_rgba ≠ height →
  ∃ rgba,
    m' !! out_rgba = Some (OPtr rgba) ∧
    rgba ≠ NULL ∧
    (∃ wh mdec wh',
       WebPDecodeRGBA lib m webp_data data_size wh = (mdec, rgba, wh')) ∧
    (webp_decode_rgba lib webp_data data_size out_rgba width height ≫=
       λ _, webp_free lib rgba) m =
      (tt, WebPFree lib m' rgba, tr ++ [EvFree rgba]).
Proof.
  intros Hrun Hw Hh.
  assert (∃ rgba, m' !! out_rgba = Some (OPtr rgba) ∧ rgba ≠ NULL ∧
            ∃ wh mdec wh',
              WebPDecodeRGBA lib m webp_data data_size wh = (mdec, rgba, wh'))
    as (rgba & Hslot & Hnn & Hfrom).
  { revert Hrun.
    destruct (webp_decode_rgba_run lib webp_data data_size out_rgba width height m)
      as [Hargs | ok w h ? ? ? ? ? Hinfo Hbad
          | ok w h mdec wh' ? ? ? ? ? Hinfo ? ? ? Hdec
          | ok w h mdec rgba w' h' ? ? ? ? ? Hinfo ? ? ? Hdec Hrgba];
      intros [= <- <-].
    exists rgba. split; [|by eauto 10].
    rewrite !lookup_insert_ne by congruence. by rewrite lookup_insert_eq. }
  exists rgba. repeat (split; [done|]).
  unfold mbind, M_bind. rewrite Hrun. reflexivity.
Qed.

(** ** These theorems on the 2x1 image *)

Lemma success_iff_all_checks_pass_witness :
  webp_decode_rgba Toy.lib 16 10 64 72 76 Toy.heap =
    (1, Toy.heap_decoded,
     [EvGetInfo 16 10; EvDecodeRGBA 16 10; EvStore 64 (OPtr 77);
      EvStore 72 (OInt 2); EvStore 76 (OInt 1)]) ∧
  (1 = 1 ↔
   16 ≠ NULL ∧ 10 ≠ 0 ∧ 64 ≠ NULL ∧ 72 ≠ NULL ∧ 76 ≠ NULL ∧
   ∃ ok w h,
     WebPGetInfo Toy.lib Toy.heap 16 10 (0, 0) = (ok, (w, h)) ∧
     ok ≠ 0 ∧ 0 < w ∧ 0 < h ∧
     (WebPDecodeRGBA Toy.lib Toy.heap 16 10 (w, h)).1.2 ≠ NULL).
Proof.
  split; [vm_compute; reflexivity|].
  apply (success_iff_all_checks_pass Toy.lib 16 10 64 72 76 Toy.heap 1 Toy.heap_decoded
           [EvGetInfo 16 10; EvDecodeRGBA 16 10; EvStore 64 (OPtr 77);
            EvStore 72 (OInt 2); EvStore 76 (OInt 1)]).
  vm_compute; reflexivity.
Defined.

Lemma probe_rejection_ends_the_call_witness :
  16 ≠ NULL ∧ 1 ≠ 0 ∧ 64 ≠ NULL ∧ 72 ≠ NULL ∧ 76 ≠ NULL ∧
  WebPGetInfo Toy.lib Toy.heap 16 1 (0, 0) = (0, (0, 0)) ∧
  (0 = 0 ∨ 0 ≤ 0 ∨ 0 ≤ 0) ∧
  webp_decode_rgba Toy.lib 16 1 64 72 76 Toy.heap = (0, Toy.heap, [EvGetInfo 16 1]).
Proof.
  repeat (split; [first [lia | reflexivity | left; reflexivity]|]).
  apply (probe_rejection_ends_the_call Toy.lib 16 1 64 72 76 Toy.heap 0 0 0);
    first [lia | reflexivity | left; reflexivity].
Defined.

Lemma null_from_the_decoder_is_failure_witness :
  16 ≠ NULL ∧ 7 ≠ 0 ∧ 64 ≠ NULL ∧ 72 ≠ NULL ∧ 76 ≠ NULL ∧
  WebPGetInfo Toy.lib Toy.heap 16 7 (0, 0) = (1, (2, 1)) ∧
  1 ≠ 0 ∧ 0 < 2 ∧ 0 < 1 ∧
  WebPDecodeRGBA Toy.lib Toy.heap 16 7 (2, 1) = (Toy.heap, NULL, (2, 1)) ∧
  webp_decode_rgba Toy.lib 16 7 64 72 76 Toy.heap =
    (0, Toy.heap, [EvGetInfo 16 7; EvDecodeRGBA 16 7]).
Proof.
  repeat (split; [first [lia | reflexivity]|]).
  apply (null_from_the_decoder_is_failure Toy.lib 16 7 64 72 76 Toy.heap 1 2 1
           Toy.heap (2, 1));
    first [lia | reflexivity].
Defined.

Lemma decoded_result_is_stored_witness :
  16 ≠ NULL ∧ 10 ≠ 0 ∧ 64 ≠ NULL ∧ 72 ≠ NULL ∧ 76 ≠ NULL ∧
  WebPGetInfo Toy.lib Toy.heap 16 10 (0, 0) = (1, (2, 1)) ∧
  1 ≠ 0 ∧ 0 < 2 ∧ 0 < 1 ∧
  WebPDecodeRGBA Toy.lib Toy.heap 16 10 (2, 1) =
    (<[77 := OBytes (Toy.bytes [10; 20; 30; 255; 40; 50; 60; 255]%N)]> Toy.heap,
     77, (2, 1)) ∧
  77 ≠ NULL ∧
  webp_decode_rgba Toy.lib 16 10 64 72 76 Toy.heap =
    (1,
     <[76 := OInt 1]> (<[72 := OInt 2]> (<[64 := OPtr 77]>
       (<[77 := OBytes (Toy.bytes [10; 20; 30; 255; 40; 50; 60; 255]%N)]> Toy.heap))),
     [EvGetInfo 16 10; EvDecodeRGBA 16 10;
      EvStore 64 (OPtr 77); EvStore 72 (OInt 2); EvStore 76 (OInt 1)]).
Proof.
  repeat (split; [first [lia | reflexivity | vm_compute; reflexivity]|]).
  apply (decoded_result_is_stored Toy.lib 16 10 64 72 76 Toy.heap 1 2 1);
    first [lia | reflexivity | vm_compute; reflexivity].
Defined.

Lemma library_calls_follow_the_protocol_witness :
  webp_decode_rgba Toy.lib 16 7 64 72 76 Toy.heap =
    (0, Toy.heap, [EvGetInfo 16 7; EvDecodeRGBA 16 7]) ∧
  library_calls [EvGetInfo 16 7; EvDecodeRGBA 16 7] `prefix_of`
    [EvGetInfo 16 7; EvDecodeRGBA 16 7] ∧
  (∀ p, EvFree p ∉ [EvGetInfo 16 7; EvDecodeRGBA 16 7]).
Proof.
  split; [vm_compute; reflexivity|].
  apply (library_calls_follow_the_protocol Toy.lib 16 7 64 72 76 Toy.heap 0 Toy.heap).
  vm_compute; reflexivity.
Defined.

Lemma stores_go_through_the_slots_witness :
  webp_decode_rgba Toy.lib 16 10 64 72 76 Toy.heap =
    (1, Toy.heap_decoded,
     [EvGetInfo 16 10; EvDecodeRGBA 16 10; EvStore 64 (OPtr 77);
      EvStore 72 (OInt 2); EvStore 76 (OInt 1)]) ∧
  EvStore 72 (OInt 2) ∈
    [EvGetInfo 16 10; EvDecodeRGBA 16 10; EvStore 64 (OPtr 77);
     EvStore 72 (OInt 2); EvStore 76 (OInt 1)] ∧
  1 = 1 ∧ 72 ≠ NULL ∧
  ((72 = 64 ∧ ∃ q, OInt 2 = OPtr q ∧ q ≠ NULL) ∨
   ((72 = 72 ∨ 72 = 76) ∧ ∃ z, OInt 2 = OInt z)).
Proof.
  assert (EvStore 72 (OInt 2) ∈
            [EvGetInfo 16 10; EvDecodeRGBA 16 10; EvStore 64 (OPtr 77);
             EvStore 72 (OInt 2); EvStore 76 (OInt 1)]) as Hin
    by (do 3 apply list_elem_of_further; apply list_elem_of_here).
  split; [vm_compute; reflexivity|]. split; [exact Hin|].
  apply (stores_go_through_the_slots Toy.lib 16 10 64 72 76 Toy.heap 1 Toy.heap_decoded
           [EvGetInfo 16 10; EvDecodeRGBA 16 10; EvStore 64 (OPtr 77);
            EvStore 72 (OInt 2); EvStore 76 (OInt 1)]
           72 (OInt 2)); [vm_compute; reflexivity | exact Hin].
Defined.

Lemma objects_apart_from_the_slots_are_kept_witness :
  webp_decode_rgba Toy.lib 16 10 64 72 76 Toy.heap =
    (1, Toy.heap_decoded,
     [EvGetInfo 16 10; EvDecodeRGBA 16 10; EvStore 64 (OPtr 77);
      EvStore 72 (OInt 2); EvStore 76 (OInt 1)]) ∧
  Toy.heap !! 16 = Some (OBytes Toy.image) ∧
  object_apart 64 16 (OBytes Toy.image) ∧
  object_apart 72 16 (OBytes Toy.image) ∧
  object_apart 76 16 (OBytes Toy.image) ∧
  (∀ wh, (WebPDecodeRGBA Toy.lib Toy.heap 16 10 wh).1.1 !! 16 = Toy.heap !! 16) ∧
  (∀ e b,
     e ∈ [EvGetInfo 16 10; EvDecodeRGBA 16 10; EvStore 64 (OPtr 77);
          EvStore 72 (OInt 2); EvStore 76 (OInt 1)] →
     writes_byte e b → ¬ (16 ≤ b < 16 + object_size (OBytes Toy.image))) ∧
  Toy.heap_decoded !! 16 = Some (OBytes Toy.image).
Proof.
  assert (∀ wh, (WebPDecodeRGBA Toy.lib Toy.heap 16 10 wh).1.1 !! 16 = Toy.heap !! 16)
    as Hkeep by (intros wh; vm_compute; reflexivity).
  assert (object_apart 64 16 (OBytes Toy.image)) as Ho
    by (split; [lia | right; vm_compute; discriminate]).
  assert (object_apart 72 16 (OBytes Toy.image)) as Hw
    by (split; [lia | right; vm_compute; discriminate]).
  assert (object_apart 76 16 (OBytes Toy.image)) as Hh
    by (split; [lia | right; vm_compute; discriminate]).
  split; [vm_compute; reflexivity|]. split; [reflexivity|].
  repeat (split; [first [assumption | exact Hkeep]|]).
  apply (objects_apart_from_the_slots_are_kept Toy.lib 16 10 64 72 76 Toy.heap 1
           Toy.heap_decoded
           [EvGetInfo 16 10; EvDecodeRGBA 16 10; EvStore 64 (OPtr 77);
            EvStore 72 (OInt 2); EvStore 76 (OInt 1)]
           16 (OBytes Toy.image));
    first [assumption | exact Hkeep | reflexivity | vm_compute; reflexivity].
Defined.

Lemma shared_dimension_slot_holds_the_height_witness :
  webp_decode_rgba Toy.lib 16 10 64 72 72 Toy.heap =
    (1, final_mem (webp_decode_rgba Toy.lib 16 10 64 72 72 Toy.heap),
     [EvGetInfo 16 10; EvDecodeRGBA 16 10; EvStore 64 (OPtr 77);
      EvStore 72 (OInt 2); EvStore 72 (OInt 1)]) ∧
  ∃ ok w h mdec rgba w' h',
    WebPGetInfo Toy.lib Toy.heap 16 10 (0, 0) = (ok, (w, h)) ∧
    WebPDecodeRGBA Toy.lib Toy.heap 16 10 (w, h) = (mdec, rgba, (w', h')) ∧
    [EvGetInfo 16 10; EvDecodeRGBA 16 10; EvStore 64 (OPtr 77);
     EvStore 72 (OInt 2); EvStore 72 (OInt 1)] =
    [EvGetInfo 16 10; EvDecodeRGBA 16 10;
     EvStore 64 (OPtr rgba); EvStore 72 (OInt w'); EvStore 72 (OInt h')] ∧
    final_mem (webp_decode_rgba Toy.lib 16 10 64 72 72 Toy.heap) !! 72 = Some (OInt h').
Proof.
  split; [vm_compute; reflexivity|].
  apply (shared_dimension_slot_holds_the_height Toy.lib 16 10 64 72 Toy.heap).
  vm_compute; reflexivity.
Defined.

Lemma slot_addresses_do_not_steer_the_decode_witness :
  64 ≠ NULL ∧ 72 ≠ NULL ∧ 76 ≠ NULL ∧ 64 ≠ NULL ∧ 76 ≠ NULL ∧ 72 ≠ NULL ∧
  webp_decode_rgba Toy.lib 16 10 64 72 76 Toy.heap =
    (1, Toy.heap_decoded,
     [EvGetInfo 16 10; EvDecodeRGBA 16 10; EvStore 64 (OPtr 77);
      EvStore 72 (OInt 2); EvStore 76 (OInt 1)]) ∧
  webp_decode_rgba Toy.lib 16 10 64 76 72 Toy.heap =
    (1, final_mem (webp_decode_rgba Toy.lib 16 10 64 76 72 Toy.heap),
     [EvGetInfo 16 10; EvDecodeRGBA 16 10; EvStore 64 (OPtr 77);
      EvStore 76 (OInt 2); EvStore 72 (OInt 1)]) ∧
  1 = 1 ∧
  library_calls
    [EvGetInfo 16 10; EvDecodeRGBA 16 10; EvStore 64 (OPtr 77);
     EvStore 72 (OInt 2); EvStore 76 (OInt 1)] =
  library_calls
    [EvGetInfo 16 10; EvDecodeRGBA 16 10; EvStore 64 (OPtr 77);
     EvStore 76 (OInt 2); EvStore 72 (OInt 1)] ∧
  (1 = 0 →
   Toy.heap_decoded = final_mem (webp_decode_rgba Toy.lib 16 10 64 76 72 Toy.heap)) ∧
  (∀ a o, Toy.heap_decoded !! a = Some o →
          object_apart 64 a o → object_apart 72 a o → object_apart 76 a o →
          object_apart 64 a o → object_apart 76 a o → object_apart 72 a o →
          final_mem (webp_decode_rgba Toy.lib 16 10 64 76 72 Toy.heap) !! a = Some o).
Proof.
  repeat (split; [first [lia | vm_compute; reflexivity]|]).
  apply (slot_addresses_do_not_steer_the_decode Toy.lib 16 10 Toy.heap
           64 72 76 1 Toy.heap_decoded
           [EvGetInfo 16 10; EvDecodeRGBA 16 10; EvStore 64 (OPtr 77);
            EvStore 72 (OInt 2); EvStore 76 (OInt 1)]
           64 76 72 1 (final_mem (webp_decode_rgba Toy.lib 16 10 64 76 72 Toy.heap))
           [EvGetInfo 16 10; EvDecodeRGBA 16 10; EvStore 64 (OPtr 77);
            EvStore 76 (OInt 2); EvStore 72 (OInt 1)]);
    first [lia | vm_compute; reflexivity].
Defined.

Lemma free_after_decode_releases_the_decoded_buffer_witness :
  webp_decode_rgba Toy.lib 16 10 64 72 76 Toy.heap =
    (1, Toy.heap_decoded,
     [EvGetInfo 16 10; EvDecodeRGBA 16 10; EvStore 64 (OPtr 77);
      EvStore 72 (OInt 2); EvStore 76 (OInt 1)]) ∧
  64 ≠ 72 ∧ 64 ≠ 76 ∧
  ∃ rgba,
    Toy.heap_decoded !! 64 = Some (OPtr rgba) ∧
    rgba ≠ NULL ∧
    (∃ wh mdec wh',
       WebPDecodeRGBA Toy.lib Toy.heap 16 10 wh = (mdec, rgba, wh')) ∧
    (webp_decode_rgba Toy.lib 16 10 64 72 76 ≫= λ _, webp_free Toy.lib rgba) Toy.heap =
      (tt, WebPFree Toy.lib Toy.heap_decoded rgba,
       [EvGetInfo 16 10; EvDecodeRGBA 16 10; EvStore 64 (OPtr 77);
        EvStore 72 (OInt 2); EvStore 76 (OInt 1)] ++ [EvFree rgba]).
Proof.
  split; [vm_compute; reflexivity|]. split; [lia|]. split; [lia|].
  apply (free_after_decode_releases_the_decoded_buffer Toy.lib 16 10 64 72 76 Toy.heap);
    first [lia | vm_compute; reflexivity].
Defined.
